(** * vecrot.py: 3D vector arithmetic through OCP's [gp_Vec]

    A shallow embedding of [python_test/src/vecrot.py].  Python floats are
    IEEE 754 binary64 numbers and are modelled by Rocq's primitive floats,
    so every arithmetic step below rounds exactly as the script does.

    The development has three layers:
    - [Vector3]: the value of a vector (three doubles) and the arithmetic
      on such values;
    - [gp_Vec]: vectors as Python sees them, objects living in a heap and
      handled through references, with the accessors and methods the
      script calls;
    - [main]: the script itself, a computation over the heap and the file
      system it writes to. *)

From Stdlib Require Import ZArith Floats Lia Ascii.
From stdpp Require Import base option list strings gmap.

Open Scope float_scope.

(** ** Vector values *)

(** The three coordinates held by a [gp_Vec]. *)
Record Vector3 := Vec3 { vx : float; vy : float; vz : float }.

(** What a Python statement can raise in this program. *)
Inductive exn :=
| DivisionByZero   (* a float division whose divisor compares equal to zero *)
| IOFailure        (* the operating system refused a directory or a file *)
| InvalidRef.      (* a method called on something that is not a live gp_Vec *)

Inductive result (A : Type) :=
| Ok (a : A)
| Raise (e : exn).
Arguments Ok {A} a.
Arguments Raise {A} e.

(** Python's [x / y] on floats: raises instead of dividing by a zero. *)
Definition py_div (x y : float) : result float :=
  if y =? 0 then Raise DivisionByZero else Ok (x / y).

Module Vector3.

(** main, line 37: [gp_Vec(v1.X() + v2.X(), v1.Y() + v2.Y(), v1.Z() + v2.Z())]. *)
Definition add (a b : Vector3) : Vector3 :=
  Vec3 (vx a + vx b) (vy a + vy b) (vz a + vz b).

(** main, line 40: [gp_Vec(v1.X() - v2.X(), v1.Y() - v2.Y(), v1.Z() - v2.Z())]. *)
Definition subtract (a b : Vector3) : Vector3 :=
  Vec3 (vx a - vx b) (vy a - vy b) (vz a - vz b).

(** Modelled from the spec: [gp_Vec.Dot] belongs to the OCP binding, which
    is not part of the sources.  Spec 4.1: [a.x*b.x + a.y*b.y + a.z*b.z]. *)
Definition dot (a b : Vector3) : float :=
  vx a * vx b + vy a * vy b + vz a * vz b.

(** Modelled from the spec: [gp_Vec.Crossed] belongs to the OCP binding.
    Spec 4.1: [x = a.y*b.z - a.z*b.y], [y = a.z*b.x - a.x*b.z],
    [z = a.x*b.y - a.y*b.x]. *)
Definition cross (a b : Vector3) : Vector3 :=
  Vec3 (vy a * vz b - vz a * vy b)
       (vz a * vx b - vx a * vz b)
       (vx a * vy b - vy a * vx b).

(** Modelled from the spec: [gp_Vec.Magnitude] belongs to the OCP binding.
    Spec 4.1: the Euclidean norm [sqrt(x^2+y^2+z^2)]. *)
Definition magnitude (a : Vector3) : float :=
  sqrt (vx a * vx a + vy a * vy a + vz a * vz a).

Definition scale (k : float) (a : Vector3) : Vector3 :=
  Vec3 (vx a * k) (vy a * k) (vz a * k).

(** Modelled from the spec: [gp_Vec.Normalized] belongs to the OCP binding.
    Spec 4.1: returns [a] scaled by [1/magnitude(a)] and fails with a
    DivisionByZero when [magnitude(a) == 0]. *)
Definition normalize (a : Vector3) : result Vector3 :=
  match py_div 1 (magnitude a) with
  | Ok k => Ok (scale k a)
  | Raise e => Raise e
  end.

(** Spec 8: "negate flips all components' sign". *)
Definition negate (a : Vector3) : Vector3 :=
  Vec3 (- vx a) (- vy a) (- vz a).

(** Spec 3: two vectors are equal iff their components are, under exact
    floating-point equality (Python's [==] on floats). *)
Definition eqb (a b : Vector3) : bool :=
  (vx a =? vx b) && (vy a =? vy b) && (vz a =? vz b).

(** The zero vector, up to the sign of its zeros. *)
Definition is_zero (a : Vector3) : bool :=
  (vx a =? 0) && (vy a =? 0) && (vz a =? 0).

Definition has_nan (a : Vector3) : bool :=
  is_nan (vx a) || is_nan (vy a) || is_nan (vz a).

End Vector3.

(** ** JSON values, as [json.dump] receives them *)

(** A Python dict keeps its keys in insertion order: an association list. *)
#[warnings="-register-all"] Inductive json :=
| JNum (f : float)
| JObj (fields : list (string * json)).

(** ** The machine: a heap of vectors and a file system *)

Definition ref := nat.

Record world := World {
  dirs : gset string;          (* directories that exist *)
  files : gmap string json;    (* files and what was dumped into them *)
  refused : gset string;       (* paths the system will not create or write *)
  stdout : list string         (* lines printed so far *)
}.

Record state := State { heap : list Vector3; sys : world }.

(** A fresh interpreter: no vector allocated yet. *)
Definition boot (w : world) : state := State [] w.

(** Computations that read and write the machine and may raise. *)
Definition M (A : Type) : Type := state -> result A * state.

Definition ret {A} (a : A) : M A := fun s => (Ok a, s).

Definition raise {A} (e : exn) : M A := fun s => (Raise e, s).

Definition bind {A B} (m : M A) (k : A -> M B) : M B :=
  fun s =>
    match m s with
    | (Ok a, s') => k a s'
    | (Raise e, s') => (Raise e, s')
    end.

Definition lift {A} (r : result A) : M A := fun s => (r, s).

Declare Scope py_scope.
Delimit Scope py_scope with py.
Notation "x <- m ;; k" := (bind m (fun x => k))
  (at level 100, m at next level, right associativity) : py_scope.
Notation "m ;;; k" := (bind m (fun _ => k))
  (at level 100, right associativity) : py_scope.
Open Scope py_scope.

(** ** [gp_Vec] objects *)

Module gp_Vec.

(** [gp_Vec(x, y, z)]: a new object, at an address no object has. *)
Definition new (x y z : float) : M ref :=
  fun s => (Ok (length (heap s)), State (heap s ++ [Vec3 x y z]) (sys s)).

Definition deref (v : ref) : M Vector3 :=
  fun s =>
    match heap s !! v with
    | Some a => (Ok a, s)
    | None => (Raise InvalidRef, s)
    end.

Definition X (v : ref) : M float := a <- deref v ;; ret (vx a).
Definition Y (v : ref) : M float := a <- deref v ;; ret (vy a).
Definition Z (v : ref) : M float := a <- deref v ;; ret (vz a).

Definition Dot (v w : ref) : M float :=
  a <- deref v ;; b <- deref w ;; ret (Vector3.dot a b).

Definition Crossed (v w : ref) : M ref :=
  a <- deref v ;; b <- deref w ;;
  let c := Vector3.cross a b in new (vx c) (vy c) (vz c).

Definition Magnitude (v : ref) : M float :=
  a <- deref v ;; ret (Vector3.magnitude a).

(** main, line 51: "Normalized() returns a new, normalized gp_Vec". *)
Definition Normalized (v : ref) : M ref :=
  a <- deref v ;; n <- lift (Vector3.normalize a) ;;
  new (vx n) (vy n) (vz n).

End gp_Vec.

(** main, line 37, for any two operands. *)
Definition add (v w : ref) : M ref :=
  xv <- gp_Vec.X v ;; xw <- gp_Vec.X w ;;
  yv <- gp_Vec.Y v ;; yw <- gp_Vec.Y w ;;
  zv <- gp_Vec.Z v ;; zw <- gp_Vec.Z w ;;
  gp_Vec.new (xv + xw) (yv + yw) (zv + zw).

(** main, line 40, for any two operands. *)
Definition subtract (v w : ref) : M ref :=
  xv <- gp_Vec.X v ;; xw <- gp_Vec.X w ;;
  yv <- gp_Vec.Y v ;; yw <- gp_Vec.Y w ;;
  zv <- gp_Vec.Z v ;; zw <- gp_Vec.Z w ;;
  gp_Vec.new (xv - xw) (yv - yw) (zv - zw).

Definition vector_to_dict (vec : ref) : M json :=
  x <- gp_Vec.X vec ;; y <- gp_Vec.Y vec ;; z <- gp_Vec.Z vec ;;
  ret (JObj [("x", JNum x); ("y", JNum y); ("z", JNum z)]%string).

(** ** The file system calls *)

Definition ends_with_slash (p : string) : bool :=
  match last (String.list_ascii_of_string p) with
  | Some c => Ascii.eqb c "/"%char
  | None => false
  end.

(** [os.path.join] on two components (POSIX). *)
Definition path_join (a b : string) : string :=
  if String.prefix "/" b then b
  else if String.eqb a "" || ends_with_slash a then (a ++ b)%string
  else (a ++ "/" ++ b)%string.

Definition with_sys (f : world -> world) : M unit :=
  fun s => (Ok tt, State (heap s) (f (sys s))).

Definition may_write (p : string) : M unit :=
  fun s => if decide (p ∈ refused (sys s)) then (Raise IOFailure, s) else (Ok tt, s).

(** [os.makedirs(d, exist_ok=True)]. *)
Definition makedirs (d : string) : M unit :=
  may_write d ;;;
  with_sys (fun w => World ({[d]} ∪ dirs w) (files w) (refused w) (stdout w)).

(** [with open(p, "w") as f: json.dump(o, f, ...)]: the file holds [o]. *)
Definition dump_to (p : string) (o : json) : M unit :=
  may_write p ;;;
  with_sys (fun w => World (dirs w) (<[p := o]> (files w)) (refused w) (stdout w)).

Definition print (line : string) : M unit :=
  with_sys (fun w => World (dirs w) (files w) (refused w) (stdout w ++ [line])).

(** ** The script *)

Definition result_dir : string := "../result".
Definition message : string := "結果を python_vector_results.json に出力しました。".
Definition output_path : string := path_join result_dir "python_vector_results.json".

(** main, lines 33 to 64: the vectors, the six results and the record. *)
Definition main_compute : M json :=
  v1 <- gp_Vec.new 1 2 3 ;;
  v2 <- gp_Vec.new 4 5 6 ;;
  v_add <- add v1 v2 ;;
  v_sub <- subtract v1 v2 ;;
  dot <- gp_Vec.Dot v1 v2 ;;
  cross <- gp_Vec.Crossed v1 v2 ;;
  magnitude <- gp_Vec.Magnitude v1 ;;
  v1_normalized <- gp_Vec.Normalized v1 ;;
  d_v1 <- vector_to_dict v1 ;;
  d_v2 <- vector_to_dict v2 ;;
  d_add <- vector_to_dict v_add ;;
  d_sub <- vector_to_dict v_sub ;;
  d_cross <- vector_to_dict cross ;;
  d_norm <- vector_to_dict v1_normalized ;;
  ret (JObj [("v1", d_v1);
             ("v2", d_v2);
             ("v1 + v2", d_add);
             ("v1 - v2", d_sub);
             ("v1 dot v2", JNum dot);
             ("v1 cross v2", d_cross);
             ("v1 magnitude", JNum magnitude);
             ("v1 normalized", d_norm)]%string).

(** main, lines 66 to 75: the record goes to the result file. *)
Definition main : M unit :=
  output <- main_compute ;;
  makedirs result_dir ;;;
  dump_to output_path output ;;;
  print message.

(** What [vector_to_dict] makes of the coordinates x, y, z. *)
Definition vec_record (x y z : float) : json :=
  JObj [("x", JNum x); ("y", JNum y); ("z", JNum z)]%string.

Definition labels : list string :=
  ["v1"; "v2"; "v1 + v2"; "v1 - v2"; "v1 dot v2"; "v1 cross v2";
   "v1 magnitude"; "v1 normalized"]%string.

(** A value of the record: three numbers under x, y, z, or one number. *)
Definition vector_or_scalar (j : json) : bool :=
  match j with
  | JNum _ => true
  | JObj [(kx, JNum _); (ky, JNum _); (kz, JNum _)] =>
      String.eqb kx "x" && String.eqb ky "y" && String.eqb kz "z"
  | JObj _ => false
  end.

(** What a run of the script builds: the record of spec 6 with the doubles
    the arithmetic really yields, and the six vectors it allocates. *)
Definition v1_unit : Vector3 :=
  Vec3 0x1.11acee560242ap-2 0x1.11acee560242ap-1 0x1.9a8365810363fp-1.

Definition script_output : json :=
  JObj [("v1", vec_record 1 2 3);
        ("v2", vec_record 4 5 6);
        ("v1 + v2", vec_record 5 7 9);
        ("v1 - v2", vec_record (-3) (-3) (-3));
        ("v1 dot v2", JNum 32);
        ("v1 cross v2", vec_record (-3) 6 (-3));
        ("v1 magnitude", JNum 0x1.deeea11683f49p+1);
        ("v1 normalized", vec_record (vx v1_unit) (vy v1_unit) (vz v1_unit))]%string.

Definition script_heap : list Vector3 :=
  [Vec3 1 2 3; Vec3 4 5 6; Vec3 5 7 9; Vec3 (-3) (-3) (-3); Vec3 (-3) 6 (-3); v1_unit].

(** The file system after a run nothing was refused to. *)
Definition written (w : world) : world :=
  World ({[result_dir]} ∪ dirs w) (<[output_path := script_output]> (files w))
        (refused w) (stdout w ++ [message]).

(** Two file systems to run the script on. *)
Definition empty_world : world := World ∅ ∅ ∅ [].
Definition used_world : world :=
  World {[result_dir]} {[output_path := JNum 0]} ∅ ["earlier output"%string].

(** The two vectors of the script (lines 33 and 34), as values. *)
Definition v1 : Vector3 := Vec3 1 2 3.
Definition v2 : Vector3 := Vec3 4 5 6.

(** [output[k]] on a record. *)
Definition field (k : string) (j : json) : option json :=
  match j with
  | JObj fields => snd <$> List.find (fun kv => String.eqb (fst kv) k) fields
  | JNum _ => None
  end.

(** ** What a run leaves of the heap *)

(** Every object alive in [s] is still there in [s'], components unchanged. *)
Definition frame (s s' : state) : Prop :=
  forall r c, heap s !! r = Some c -> heap s' !! r = Some c.

(** [m] never writes to an object that exists when it starts. *)
Definition framed {A} (m : M A) : Prop := forall s, frame s (snd (m s)).

(** When the run returns a vector, it is an object [s] did not have. *)
Definition returns_new (s : state) (out : result ref * state) : Prop :=
  match fst out with
  | Ok r => heap s !! r = None /\ is_Some (heap (snd out) !! r)
  | Raise _ => True
  end.

(** ** Unit length, up to rounding *)







(** ** Finite coordinates and a second run *)

(** No coordinate is NaN or an infinity ([math.isfinite] on each). *)
Definition all_finite (a : Vector3) : bool :=
  is_finite (vx a) && is_finite (vy a) && is_finite (vz a).

(** A zero or a finite number, on the specification side. *)
Definition SFfinite (u : spec_float) : bool :=
  match u with
  | S754_zero _ | S754_finite _ _ _ => true
  | S754_infinity _ | S754_nan => false
  end.

(** The script started again, on the file system its first run left. *)
Definition rerun (w : world) : result unit * state :=
  main (boot (sys (snd (main (boot w))))).

(** ** Comparing doubles

    [x = y] says that two doubles are the same value; [x =? y] is Python's
    [==], which holds of a zero against the zero of the other sign and
    fails of NaN against itself. *)

(** The same value, or two values [==] cannot tell apart. *)
Definition same_float (x y : float) : Prop := x = y \/ (x =? y) = true.

Definition same_vector (a b : Vector3) : Prop :=
  same_float (vx a) (vx b) /\ same_float (vy a) (vy b) /\ same_float (vz a) (vz b).

(** [same_float] on the specification side. *)
Definition SFsame (u v : spec_float) : Prop := u = v \/ SFeqb u v = true.

(** At least zero: a zero, a positive number or plus infinity. *)
Definition SFnonneg (u : spec_float) : Prop := SFleb (S754_zero false) u = true.

(** ** Facts about binary64 arithmetic

    The primitive operations are specified by the functions of [SpecFloat];
    the lemmas below are read off those specifications. *)

Section SpecFacts.

Variables prec emax : BinNums.Z.

Lemma SFadd_comm (u v : spec_float) : SFadd prec emax u v = SFadd prec emax v u.
Proof.
  destruct u as [su|su| |su mu eu], v as [sv|sv| |sv mv ev];
    try reflexivity; try (destruct su, sv; reflexivity).
  unfold SFadd. rewrite (Z.min_comm ev eu). f_equal. apply Z.add_comm.
Qed.

Lemma SFmul_comm (u v : spec_float) : SFmul prec emax u v = SFmul prec emax v u.
Proof.
  destruct u as [su|su| |su mu eu], v as [sv|sv| |sv mv ev];
    try reflexivity; try (destruct su, sv; reflexivity).
  unfold SFmul. rewrite (xorb_comm sv su), (Pos.mul_comm mv mu), (Z.add_comm ev eu).
  reflexivity.
Qed.

Lemma SFopp_involutive (u : spec_float) : SFopp (SFopp u) = u.
Proof. destruct u as [s|s| |s m e]; simpl; now rewrite ?negb_involutive. Qed.

(** Rounding to nearest even does not look at the sign. *)
Lemma binary_round_aux_opp (s : bool) (m e : BinNums.Z) (l : location) :
  binary_round_aux prec emax (negb s) m e l
  = SFopp (binary_round_aux prec emax s m e l).
Proof.
  unfold binary_round_aux.
  destruct (shr_fexp prec emax m e l) as [r1 e1].
  destruct (shr_fexp prec emax _ e1 loc_Exact) as [r2 e2].
  destruct (shr_m r2); try reflexivity.
  destruct (Z.leb e2 (Z.sub emax prec)); reflexivity.
Qed.

Lemma binary_round_opp (s : bool) (m : positive) (e : BinNums.Z) :
  binary_round prec emax (negb s) m e = SFopp (binary_round prec emax s m e).
Proof.
  unfold binary_round.
  destruct (shl_align m e _) as [mz ez]. apply binary_round_aux_opp.
Qed.

Lemma binary_normalize_opp (m e : BinNums.Z) :
  SFsame (binary_normalize prec emax (Z.opp m) e false)
         (SFopp (binary_normalize prec emax m e false)).
Proof.
  destruct m as [|p|p]; simpl.
  - right. reflexivity.
  - left. apply (binary_round_opp false).
  - left. rewrite (binary_round_opp false). symmetry. apply SFopp_involutive.
Qed.

Lemma SFsub_antisym (u v : spec_float) :
  SFsame (SFsub prec emax u v) (SFopp (SFsub prec emax v u)).
Proof.
  destruct u as [su|su| |su mu eu], v as [sv|sv| |sv mv ev];
    try (left; reflexivity);
    try (destruct su, sv; (left; reflexivity) || (right; reflexivity)).
  unfold SFsub. rewrite (Z.min_comm ev eu).
  set (P := cond_Zopp su _). set (Q := cond_Zopp sv _).
  replace (Z.sub P Q) with (Z.opp (Z.sub Q P)) by lia.
  apply binary_normalize_opp.
Qed.

(** *** Signs: what is at least zero stays so *)

Lemma shr_1_nonneg (r : shr_record) :
  (0 <= shr_m r)%Z -> (0 <= shr_m (shr_1 r))%Z.
Proof. destruct r as [m r s]; destruct m as [|[p|p|]|[p|p|]]; simpl; lia. Qed.

Lemma iter_pos_preserves {A} (P : A -> Prop) (f : A -> A) :
  (forall a, P a -> P (f a)) -> forall p a, P a -> P (SpecFloat.iter_pos f p a).
Proof. intros Hf; induction p as [p IH|p IH|]; simpl; auto. Qed.

Lemma shr_nonneg (r : shr_record) (e n : BinNums.Z) :
  (0 <= shr_m r)%Z -> (0 <= shr_m (fst (shr r e n)))%Z.
Proof.
  intros Hr. destruct n as [|p|p]; simpl; trivial.
  apply (iter_pos_preserves (fun r => (0 <= shr_m r)%Z)); auto using shr_1_nonneg.
Qed.

Lemma shr_fexp_nonneg (m e : BinNums.Z) (l : location) :
  (0 <= m)%Z -> (0 <= shr_m (fst (shr_fexp prec emax m e l)))%Z.
Proof.
  intros Hm. unfold shr_fexp. apply shr_nonneg. now destruct l as [|[| |]].
Qed.

Lemma round_nearest_even_nonneg (m : BinNums.Z) (l : location) :
  (0 <= m)%Z -> (0 <= round_nearest_even m l)%Z.
Proof.
  intros Hm. destruct l as [|[| |]]; simpl; try lia. destruct (Z.even m); lia.
Qed.

Lemma binary_round_aux_nonneg (m e : BinNums.Z) (l : location) :
  (0 <= m)%Z -> SFnonneg (binary_round_aux prec emax false m e l).
Proof.
  intros Hm. unfold binary_round_aux.
  pose proof (shr_fexp_nonneg m e l Hm) as H1.
  destruct (shr_fexp prec emax m e l) as [r1 e1]; simpl in H1.
  pose proof (shr_fexp_nonneg _ e1 loc_Exact
                (round_nearest_even_nonneg _ (loc_of_shr_record r1) H1)) as H2.
  destruct (shr_fexp prec emax _ e1 loc_Exact) as [r2 e2]; simpl in H2.
  destruct (shr_m r2) as [|q|q]; try lia; try reflexivity.
  destruct (Z.leb e2 (Z.sub emax prec)); reflexivity.
Qed.

Lemma SFmul_self_nonneg (u : spec_float) :
  u <> S754_nan -> SFnonneg (SFmul prec emax u u).
Proof.
  intros Hu. destruct u as [s|s| |s m e]; try congruence.
  - reflexivity.
  - now destruct s.
  - unfold SFmul. rewrite xorb_nilpotent. now apply binary_round_aux_nonneg.
Qed.

Lemma SFadd_nonneg (u v : spec_float) :
  SFnonneg u -> SFnonneg v -> SFnonneg (SFadd prec emax u v).
Proof.
  destruct u as [su|[|]| |[|] mu eu], v as [sv|[|]| |[|] mv ev];
    try discriminate; try (intros; assumption); try (destruct su, sv; reflexivity).
  intros _ _. unfold SFadd, cond_Zopp.
  set (a := fst (shl_align mu eu _)). set (b := fst (shl_align mv ev _)).
  change (Z.add (Zpos a) (Zpos b)) with (Zpos (a + b)).
  unfold binary_normalize, binary_round.
  destruct (shl_align (a + b) _ _) as [mz ez]. now apply binary_round_aux_nonneg.
Qed.

Lemma SFsqrt_nonneg (u : spec_float) :
  SFnonneg u -> SFnonneg (SFsqrt prec emax u).
Proof.
  destruct u as [s|[|]| |[|] m e]; try discriminate; try (intros; assumption).
  intros _. unfold SFsqrt, SFsqrt_core_binary.
  set (m' := match _ with Z0 => _ | Zpos _ => _ | Zneg _ => _ end).
  pose proof (Z.sqrtrem_sqrt m') as Hq. pose proof (Z.sqrt_nonneg m') as Hs.
  destruct (Z.sqrtrem m') as [q r]; simpl in Hq.
  apply binary_round_aux_nonneg. lia.
Qed.

Lemma SFnonneg_not_ltb (u : spec_float) :
  SFnonneg u -> SFltb u (S754_zero false) = false.
Proof. destruct u as [s|[|]| |[|] m e]; try discriminate; reflexivity. Qed.

(** A square root is never below zero, whatever it is the root of. *)
Lemma SFsqrt_not_negative (u : spec_float) :
  SFltb (SFsqrt prec emax u) (S754_zero false) = false.
Proof.
  destruct u as [s|[|]| |[|] m e]; try reflexivity.
  apply SFnonneg_not_ltb. now apply SFsqrt_nonneg.
Qed.

End SpecFacts.

(** *** The same facts on the primitive operations *)

Section FloatFacts.

Implicit Types x y : float.

Lemma Prim2SF_zero : Prim2SF 0 = S754_zero false.
Proof. reflexivity. Qed.

Lemma float_add_comm x y : x + y = y + x.
Proof. apply Prim2SF_inj. rewrite !FloatAxioms.add_spec. apply SFadd_comm. Qed.

Lemma float_mul_comm x y : x * y = y * x.
Proof. apply Prim2SF_inj. rewrite !FloatAxioms.mul_spec. apply SFmul_comm. Qed.

Lemma float_sub_antisym x y : same_float (x - y) (- (y - x)).
Proof.
  destruct (SFsub_antisym prec emax (Prim2SF x) (Prim2SF y)) as [H|H].
  - left. apply Prim2SF_inj. rewrite FloatAxioms.opp_spec, !FloatAxioms.sub_spec. exact H.
  - right. rewrite FloatAxioms.eqb_spec, FloatAxioms.opp_spec, !FloatAxioms.sub_spec. exact H.
Qed.

Lemma same_float_eqb x y : same_float x y -> is_nan x = false -> (x =? y) = true.
Proof.
  intros [->|H] Hx; [|exact H].
  unfold is_nan in Hx. now destruct (y =? y).
Qed.

Lemma not_nan_spec x : is_nan x = false -> Prim2SF x <> S754_nan.
Proof.
  unfold is_nan. rewrite FloatAxioms.eqb_spec. intros H E. rewrite E in H. discriminate.
Qed.

Lemma nonneg_not_nan x : (0 <=? x) = true -> is_nan x = false.
Proof.
  unfold is_nan. rewrite FloatAxioms.leb_spec, FloatAxioms.eqb_spec, Prim2SF_zero.
  destruct (Prim2SF x) as [s|[|]| |[|] m e]; try discriminate; try reflexivity.
  intros _. unfold SFeqb, SFcompare.
  now rewrite Z.compare_refl, Pos.compare_cont_refl.
Qed.

Lemma float_mul_self_nonneg x : is_nan x = false -> (0 <=? x * x) = true.
Proof.
  intros Hx. rewrite FloatAxioms.leb_spec, FloatAxioms.mul_spec, Prim2SF_zero.
  apply SFmul_self_nonneg. now apply not_nan_spec.
Qed.

Lemma float_add_nonneg x y :
  (0 <=? x) = true -> (0 <=? y) = true -> (0 <=? x + y) = true.
Proof.
  rewrite !FloatAxioms.leb_spec, FloatAxioms.add_spec, Prim2SF_zero. apply SFadd_nonneg.
Qed.

Lemma float_sqrt_nonneg x : (0 <=? x) = true -> (0 <=? sqrt x) = true.
Proof.
  rewrite !FloatAxioms.leb_spec, FloatAxioms.sqrt_spec, Prim2SF_zero. apply SFsqrt_nonneg.
Qed.

Lemma float_sqrt_not_negative x : (sqrt x <? 0) = false.
Proof.
  rewrite FloatAxioms.ltb_spec, FloatAxioms.sqrt_spec, Prim2SF_zero. apply SFsqrt_not_negative.
Qed.

(** Only the two zeros compare equal to zero. *)
Lemma float_eqb_zero x : (x =? 0) = true -> x = 0 \/ x = -0.
Proof.
  rewrite FloatAxioms.eqb_spec, Prim2SF_zero. intros H.
  destruct (Prim2SF x) as [[|]|[|]| |[|] m e] eqn:E; try discriminate.
  - right. now apply Prim2SF_inj.
  - left. now apply Prim2SF_inj.
Qed.

End FloatFacts.

(** ** Running the script *)

Lemma main_compute_run (w : world) :
  main_compute (boot w) = (Ok script_output, State script_heap w).
Proof. vm_compute. reflexivity. Qed.

Lemma main_run (w : world) :
  main (boot w) =
  if decide (result_dir ∈ refused w) then (Raise IOFailure, State script_heap w)
  else if decide (output_path ∈ refused w)
       then (Raise IOFailure,
             State script_heap
                   (World ({[result_dir]} ∪ dirs w) (files w) (refused w) (stdout w)))
       else (Ok tt, State script_heap (written w)).
Proof.
  unfold main, bind at 1. rewrite main_compute_run.
  unfold makedirs, dump_to, print, may_write, with_sys, bind.
  cbn [sys heap refused].
  destruct (decide (result_dir ∈ refused w)); [reflexivity|].
  cbn [sys heap refused].
  destruct (decide (output_path ∈ refused w)); reflexivity.
Qed.

(** C1: on v1 = (1,2,3) and v2 = (4,5,6) the script computes the sum
    (5,7,9), the difference (-3,-3,-3), the dot product 32 and the cross
    product (-3,6,-3), and files them under their labels. *)
Theorem main_fixed_results (w : world) :
  (Vector3.add v1 v2 = Vec3 5 7 9 /\
   Vector3.subtract v1 v2 = Vec3 (-3) (-3) (-3) /\
   Vector3.dot v1 v2 = 32 /\
   Vector3.cross v1 v2 = Vec3 (-3) 6 (-3)) /\
  exists output s',
    main_compute (boot w) = (Ok output, s') /\
    field "v1" output = Some (vec_record 1 2 3) /\
    field "v2" output = Some (vec_record 4 5 6) /\
    field "v1 + v2" output = Some (vec_record 5 7 9) /\
    field "v1 - v2" output = Some (vec_record (-3) (-3) (-3)) /\
    field "v1 dot v2" output = Some (JNum 32) /\
    field "v1 cross v2" output = Some (vec_record (-3) 6 (-3)).
Proof.
  split.
  - repeat split; vm_compute; reflexivity.
  - eexists _, _. split; [apply main_compute_run|].
    repeat split; vm_compute; reflexivity.
Qed.

(** C2: the cross product has the components
    x = a.y*b.z - a.z*b.y, y = a.z*b.x - a.x*b.z, z = a.x*b.y - a.y*b.x. *)
Theorem cross_components (a b : Vector3) :
  vx (Vector3.cross a b) = vy a * vz b - vz a * vy b /\
  vy (Vector3.cross a b) = vz a * vx b - vx a * vz b /\
  vz (Vector3.cross a b) = vx a * vy b - vy a * vx b.
Proof. repeat split. Qed.



(** C6: addition is commutative, add(a,b) and add(b,a) are the same vector. *)
Theorem add_commutative (a b : Vector3) : Vector3.add a b = Vector3.add b a.
Proof.
  unfold Vector3.add. f_equal; apply float_add_comm.
Qed.

(** Under Python's [==] the two sums compare equal unless a sum is NaN. *)
Lemma add_commutative_eqb (a b : Vector3) :
  Vector3.has_nan (Vector3.add a b) = false ->
  Vector3.eqb (Vector3.add a b) (Vector3.add b a) = true.
Proof.
  unfold Vector3.has_nan, Vector3.eqb, Vector3.add, is_nan; simpl.
  rewrite (float_add_comm (vx b)), (float_add_comm (vy b)), (float_add_comm (vz b)).
  destruct (_ =? _), (_ =? _), (_ =? _); simpl; congruence.
Qed.

(** Opposite infinities add up to NaN, and NaN is not [==] to itself. *)
Example add_nan_not_eqb :
  Vector3.eqb (Vector3.add (Vec3 infinity 0 0) (Vec3 neg_infinity 0 0))
              (Vector3.add (Vec3 neg_infinity 0 0) (Vec3 infinity 0 0)) = false.
Proof. reflexivity. Qed.

Lemma vector_to_dict_run (s : state) (vec : ref) (a : Vector3) :
  heap s !! vec = Some a ->
  vector_to_dict vec s = (Ok (vec_record (vx a) (vy a) (vz a)), s).
Proof.
  intros Hv. unfold vector_to_dict, gp_Vec.X, gp_Vec.Y, gp_Vec.Z, gp_Vec.deref, bind, ret.
  repeat (rewrite ?Hv; simpl). reflexivity.
Qed.

(** C7: the record holds the eight labels, in the order of the script, each
    with a vector record (x, y, z) or a number; it is what the result file
    holds unless the system refused the directory or the file. *)
Theorem output_labels_in_order (w : world) :
  exists fields s',
    main_compute (boot w) = (Ok (JObj fields), s') /\
    fields.*1 = labels /\
    forallb vector_or_scalar fields.*2 = true /\
    (fst (main (boot w)) = Raise IOFailure \/
     files (sys (snd (main (boot w)))) !! output_path = Some (JObj fields)).
Proof.
  eexists _, _. split; [apply main_compute_run|]. repeat split.
  rewrite main_run. repeat case_decide; simpl; auto.
  right. apply lookup_insert_eq.
Qed.

(** ** Magnitude *)

Lemma has_nan_false (a : Vector3) :
  Vector3.has_nan a = false ->
  is_nan (vx a) = false /\ is_nan (vy a) = false /\ is_nan (vz a) = false.
Proof.
  unfold Vector3.has_nan.
  destruct (is_nan (vx a)), (is_nan (vy a)), (is_nan (vz a)); simpl; auto; discriminate.
Qed.

Lemma is_zero_true (a : Vector3) :
  Vector3.is_zero a = true ->
  (vx a =? 0) = true /\ (vy a =? 0) = true /\ (vz a =? 0) = true.
Proof.
  unfold Vector3.is_zero.
  destruct (vx a =? 0), (vy a =? 0), (vz a =? 0); simpl; auto; discriminate.
Qed.

(** The square of 2^-600 is below the smallest double and rounds to zero:
    a vector that is not zero has magnitude zero. *)
Lemma magnitude_zero_of_nonzero_vector :
  Vector3.is_zero (Vec3 0x1p-600 0 0) = false /\
  (Vector3.magnitude (Vec3 0x1p-600 0 0) =? 0) = true.
Proof. split; reflexivity. Qed.

(** With a NaN coordinate the magnitude is NaN, which is not [>= 0]. *)
Example magnitude_of_nan : (0 <=? Vector3.magnitude (Vec3 nan 0 0)) = false.
Proof. reflexivity. Qed.

(** C4, amended: the magnitude is sqrt(x*x + y*y + z*z) in double
    arithmetic; it is never below zero, and it is at least zero when no
    coordinate is NaN; the zero vector has magnitude zero. *)
Theorem magnitude_properties (a : Vector3) :
  Vector3.magnitude a = sqrt (vx a * vx a + vy a * vy a + vz a * vz a) /\
  (Vector3.magnitude a <? 0) = false /\
  (Vector3.has_nan a = false -> (0 <=? Vector3.magnitude a) = true) /\
  (Vector3.is_zero a = true -> Vector3.magnitude a = 0).
Proof.
  split; [reflexivity|]. split; [apply float_sqrt_not_negative|]. split.
  - intros H. apply has_nan_false in H as (Hx & Hy & Hz).
    unfold Vector3.magnitude.
    auto using float_sqrt_nonneg, float_add_nonneg, float_mul_self_nonneg.
  - intros H. apply is_zero_true in H as (Hx & Hy & Hz).
    unfold Vector3.magnitude.
    destruct (float_eqb_zero _ Hx) as [->| ->],
             (float_eqb_zero _ Hy) as [->| ->],
             (float_eqb_zero _ Hz) as [->| ->]; reflexivity.
Qed.

Lemma magnitude_properties_v1 :
  Vector3.has_nan v1 = false /\ (0 <=? Vector3.magnitude v1) = true.
Proof.
  split; [reflexivity|].
  apply (proj1 (proj2 (proj2 (magnitude_properties v1)))). reflexivity.
Defined.

(** ** Cross product *)

(** With a = (0, 2^600, 2^600) the products overflow: the x coordinate of
    cross(a,a) is NaN, which no [==] accepts, and the other two are +0
    where the negated product has -0. *)
Lemma cross_not_anticommutative :
  Vector3.cross (Vec3 0 0x1p600 0x1p600) (Vec3 0 0x1p600 0x1p600)
    <> Vector3.negate (Vector3.cross (Vec3 0 0x1p600 0x1p600) (Vec3 0 0x1p600 0x1p600)) /\
  Vector3.eqb
    (Vector3.cross (Vec3 0 0x1p600 0x1p600) (Vec3 0 0x1p600 0x1p600))
    (Vector3.negate (Vector3.cross (Vec3 0 0x1p600 0x1p600) (Vec3 0 0x1p600 0x1p600)))
  = false.
Proof.
  split; [|reflexivity].
  intros H. apply (f_equal (fun c => Prim2SF (vy c))) in H.
  vm_compute in H. discriminate.
Qed.

(** The sign of a zero already separates the two sides on (1,2,3). *)
Example cross_self_signed_zero :
  Vector3.cross v1 v1 = Vec3 0 0 0 /\
  Vector3.negate (Vector3.cross v1 v1) = Vec3 (-0) (-0) (-0).
Proof. split; reflexivity. Qed.

(** C5, amended: cross(a,b) and negate(cross(b,a)) agree coordinate by
    coordinate, each pair being the same double or two doubles that compare
    equal; the vectors compare equal when cross(a,b) has no NaN. *)
Theorem cross_anticommutative (a b : Vector3) :
  same_vector (Vector3.cross a b) (Vector3.negate (Vector3.cross b a)) /\
  (Vector3.has_nan (Vector3.cross a b) = false ->
   Vector3.eqb (Vector3.cross a b) (Vector3.negate (Vector3.cross b a)) = true).
Proof.
  assert (Hs : same_vector (Vector3.cross a b) (Vector3.negate (Vector3.cross b a))).
  { unfold same_vector, Vector3.cross, Vector3.negate; simpl.
    rewrite (float_mul_comm (vy b) (vz a)), (float_mul_comm (vz b) (vy a)),
            (float_mul_comm (vz b) (vx a)), (float_mul_comm (vx b) (vz a)),
            (float_mul_comm (vx b) (vy a)), (float_mul_comm (vy b) (vx a)).
    repeat split; apply float_sub_antisym. }
  split; [exact Hs|].
  intros H. apply has_nan_false in H as (Hx & Hy & Hz).
  destruct Hs as (Sx & Sy & Sz). unfold Vector3.eqb.
  rewrite (same_float_eqb _ _ Sx Hx), (same_float_eqb _ _ Sy Hy),
          (same_float_eqb _ _ Sz Hz).
  reflexivity.
Qed.

Lemma cross_anticommutative_v1_v2 :
  Vector3.has_nan (Vector3.cross v1 v2) = false /\
  Vector3.eqb (Vector3.cross v1 v2) (Vector3.negate (Vector3.cross v2 v1)) = true.
Proof.
  split; [reflexivity|].
  apply (proj2 (cross_anticommutative v1 v2)). reflexivity.
Defined.

(** ** Operations and the objects they are given *)

Create HintDb frames discriminated.

Lemma frame_refl (s : state) : frame s s.
Proof. intros r c H; exact H. Qed.

Lemma frame_trans (s1 s2 s3 : state) : frame s1 s2 -> frame s2 s3 -> frame s1 s3.
Proof. intros H12 H23 r c H. auto. Qed.

Lemma framed_ret {A} (a : A) : framed (ret a).
Proof. intros s. apply frame_refl. Qed.

Lemma framed_lift {A} (r : result A) : framed (lift r).
Proof. intros s. apply frame_refl. Qed.

Lemma framed_deref (v : ref) : framed (gp_Vec.deref v).
Proof.
  intros s. unfold gp_Vec.deref. destruct (heap s !! v); apply frame_refl.
Qed.

(** A new object goes after all the others. *)
Lemma framed_new (x y z : float) : framed (gp_Vec.new x y z).
Proof. intros s r c H. simpl. now apply lookup_app_l_Some. Qed.

Lemma framed_bind {A B} (m : M A) (k : A -> M B) :
  framed m -> (forall a, framed (k a)) -> framed (bind m k).
Proof.
  intros Hm Hk s. unfold bind. specialize (Hm s).
  destruct (m s) as [[a|e] s1]; simpl in *; [|exact Hm].
  eapply frame_trans; [exact Hm|apply Hk].
Qed.

#[local] Hint Resolve framed_ret framed_lift framed_deref framed_new framed_bind : frames.

Lemma framed_X (v : ref) : framed (gp_Vec.X v).
Proof. unfold gp_Vec.X. auto with frames. Qed.

Lemma framed_Y (v : ref) : framed (gp_Vec.Y v).
Proof. unfold gp_Vec.Y. auto with frames. Qed.

Lemma framed_Z (v : ref) : framed (gp_Vec.Z v).
Proof. unfold gp_Vec.Z. auto with frames. Qed.

#[local] Hint Resolve framed_X framed_Y framed_Z : frames.

Lemma framed_add (v w : ref) : framed (add v w).
Proof. unfold add. auto 10 with frames. Qed.

Lemma framed_subtract (v w : ref) : framed (subtract v w).
Proof. unfold subtract. auto 10 with frames. Qed.

Lemma framed_Dot (v w : ref) : framed (gp_Vec.Dot v w).
Proof. unfold gp_Vec.Dot. auto with frames. Qed.

Lemma framed_Crossed (v w : ref) : framed (gp_Vec.Crossed v w).
Proof. unfold gp_Vec.Crossed. auto with frames. Qed.

Lemma framed_Magnitude (v : ref) : framed (gp_Vec.Magnitude v).
Proof. unfold gp_Vec.Magnitude. auto with frames. Qed.

Lemma framed_Normalized (v : ref) : framed (gp_Vec.Normalized v).
Proof. unfold gp_Vec.Normalized. auto with frames. Qed.

Lemma returns_new_new (s : state) (x y z : float) :
  returns_new s (gp_Vec.new x y z s).
Proof.
  unfold returns_new; simpl. split.
  - apply lookup_ge_None. lia.
  - exists (Vec3 x y z). rewrite lookup_app_r by lia.
    now rewrite Nat.sub_diag.
Qed.

(** What each operation does to live operands, and to a dead one. *)
Ltac run_with Hv Hw :=
  unfold gp_Vec.X, gp_Vec.Y, gp_Vec.Z, gp_Vec.deref, bind, ret, lift;
  repeat (rewrite ?Hv, ?Hw; simpl); try reflexivity.

Lemma add_run (s : state) (v w : ref) (a b : Vector3) :
  heap s !! v = Some a -> heap s !! w = Some b ->
  add v w s = (Ok (length (heap s)), State (heap s ++ [Vector3.add a b]) (sys s)).
Proof. intros Hv Hw. unfold add. run_with Hv Hw. Qed.

Lemma subtract_run (s : state) (v w : ref) (a b : Vector3) :
  heap s !! v = Some a -> heap s !! w = Some b ->
  subtract v w s
  = (Ok (length (heap s)), State (heap s ++ [Vector3.subtract a b]) (sys s)).
Proof. intros Hv Hw. unfold subtract. run_with Hv Hw. Qed.

Lemma Crossed_run (s : state) (v w : ref) (a b : Vector3) :
  heap s !! v = Some a -> heap s !! w = Some b ->
  gp_Vec.Crossed v w s
  = (Ok (length (heap s)), State (heap s ++ [Vector3.cross a b]) (sys s)).
Proof. intros Hv Hw. unfold gp_Vec.Crossed. run_with Hv Hw. Qed.

Lemma Normalized_run (s : state) (v : ref) (a n : Vector3) :
  heap s !! v = Some a -> Vector3.normalize a = Ok n ->
  gp_Vec.Normalized v s = (Ok (length (heap s)), State (heap s ++ [n]) (sys s)).
Proof.
  intros Hv Hn. unfold gp_Vec.Normalized. run_with Hv Hn. now destruct n.
Qed.

Lemma Normalized_raises (s : state) (v : ref) (a : Vector3) (e : exn) :
  heap s !! v = Some a -> Vector3.normalize a = Raise e ->
  gp_Vec.Normalized v s = (Raise e, s).
Proof. intros Hv Hn. unfold gp_Vec.Normalized. run_with Hv Hn. Qed.

Lemma dead_operand (s : state) (v w : ref) :
  heap s !! v = None \/ heap s !! w = None ->
  add v w s = (Raise InvalidRef, s) /\
  subtract v w s = (Raise InvalidRef, s) /\
  gp_Vec.Crossed v w s = (Raise InvalidRef, s).
Proof.
  unfold add, subtract, gp_Vec.Crossed.
  destruct (heap s !! v) as [a|] eqn:Hv; intros [H|H]; try discriminate;
    repeat split; run_with Hv H.
Qed.

Lemma returns_new_append (s : state) (c : Vector3) :
  returns_new s (Ok (length (heap s)), State (heap s ++ [c]) (sys s)).
Proof. destruct c as [x y z]. apply (returns_new_new s x y z). Qed.

Lemma returns_new_add (s : state) (v w : ref) : returns_new s (add v w s).
Proof.
  destruct (heap s !! v) as [a|] eqn:Hv; [destruct (heap s !! w) as [b|] eqn:Hw|].
  - rewrite (add_run s v w a b Hv Hw). apply returns_new_append.
  - rewrite (proj1 (dead_operand s v w (or_intror Hw))). exact I.
  - rewrite (proj1 (dead_operand s v w (or_introl Hv))). exact I.
Qed.

Lemma returns_new_subtract (s : state) (v w : ref) : returns_new s (subtract v w s).
Proof.
  destruct (heap s !! v) as [a|] eqn:Hv; [destruct (heap s !! w) as [b|] eqn:Hw|].
  - rewrite (subtract_run s v w a b Hv Hw). apply returns_new_append.
  - rewrite (proj1 (proj2 (dead_operand s v w (or_intror Hw)))). exact I.
  - rewrite (proj1 (proj2 (dead_operand s v w (or_introl Hv)))). exact I.
Qed.

Lemma returns_new_Crossed (s : state) (v w : ref) :
  returns_new s (gp_Vec.Crossed v w s).
Proof.
  destruct (heap s !! v) as [a|] eqn:Hv; [destruct (heap s !! w) as [b|] eqn:Hw|].
  - rewrite (Crossed_run s v w a b Hv Hw). apply returns_new_append.
  - rewrite (proj2 (proj2 (dead_operand s v w (or_intror Hw)))). exact I.
  - rewrite (proj2 (proj2 (dead_operand s v w (or_introl Hv)))). exact I.
Qed.

Lemma returns_new_Normalized (s : state) (v : ref) :
  returns_new s (gp_Vec.Normalized v s).
Proof.
  destruct (heap s !! v) as [a|] eqn:Hv.
  - destruct (Vector3.normalize a) as [n|e] eqn:Hn.
    + rewrite (Normalized_run s v a n Hv Hn). apply returns_new_append.
    + rewrite (Normalized_raises s v a e Hv Hn). exact I.
  - unfold gp_Vec.Normalized. run_with Hv Hv.
Qed.

Lemma Dot_pure (s : state) (v w : ref) : snd (gp_Vec.Dot v w s) = s.
Proof.
  unfold gp_Vec.Dot, gp_Vec.deref, bind, ret.
  destruct (heap s !! v); [destruct (heap s !! w)|]; reflexivity.
Qed.

Lemma Magnitude_pure (s : state) (v : ref) : snd (gp_Vec.Magnitude v s) = s.
Proof.
  unfold gp_Vec.Magnitude, gp_Vec.deref, bind, ret.
  destruct (heap s !! v); reflexivity.
Qed.

Lemma Dot_run (s : state) (v w : ref) (a b : Vector3) :
  heap s !! v = Some a -> heap s !! w = Some b ->
  gp_Vec.Dot v w s = (Ok (Vector3.dot a b), s).
Proof. intros Hv Hw. unfold gp_Vec.Dot. run_with Hv Hw. Qed.

Lemma Magnitude_run (s : state) (v : ref) (a : Vector3) :
  heap s !! v = Some a ->
  gp_Vec.Magnitude v s = (Ok (Vector3.magnitude a), s).
Proof. intros Hv. unfold gp_Vec.Magnitude. run_with Hv Hv. Qed.

(** On a heap holding v1 and v2 every operation returns, the vector
    results at the next free address; an operand may be used twice. *)
Example operations_on_live_vectors :
  add 0%nat 1%nat (State [v1; v2] empty_world)
    = (Ok 2%nat, State [v1; v2; Vec3 5 7 9] empty_world) /\
  subtract 0%nat 0%nat (State [v1; v2] empty_world)
    = (Ok 2%nat, State [v1; v2; Vec3 0 0 0] empty_world) /\
  gp_Vec.Crossed 0%nat 1%nat (State [v1; v2] empty_world)
    = (Ok 2%nat, State [v1; v2; Vec3 (-3) 6 (-3)] empty_world) /\
  gp_Vec.Normalized 0%nat (State [v1; v2] empty_world)
    = (Ok 2%nat, State [v1; v2; v1_unit] empty_world) /\
  gp_Vec.Dot 0%nat 1%nat (State [v1; v2] empty_world)
    = (Ok 32, State [v1; v2] empty_world).
Proof. repeat split. Qed.

(** C8: none of the six operations changes a vector it is given: every
    object alive before the call, the operands among them, has the same
    coordinates after it, and a vector result is a new object. *)
Theorem operations_do_not_mutate (s : state) (v w : ref) :
  (frame s (snd (add v w s)) /\ returns_new s (add v w s)) /\
  (frame s (snd (subtract v w s)) /\ returns_new s (subtract v w s)) /\
  snd (gp_Vec.Dot v w s) = s /\
  (frame s (snd (gp_Vec.Crossed v w s)) /\ returns_new s (gp_Vec.Crossed v w s)) /\
  snd (gp_Vec.Magnitude v s) = s /\
  (frame s (snd (gp_Vec.Normalized v s)) /\ returns_new s (gp_Vec.Normalized v s)).
Proof.
  split; [split; [apply framed_add|apply returns_new_add]|].
  split; [split; [apply framed_subtract|apply returns_new_subtract]|].
  split; [apply Dot_pure|].
  split; [split; [apply framed_Crossed|apply returns_new_Crossed]|].
  split; [apply Magnitude_pure|].
  split; [apply framed_Normalized|apply returns_new_Normalized].
Qed.

(** ** One run is like another *)

Lemma main_writes_record (w : world) :
  fst (main (boot w)) = Ok tt ->
  files (sys (snd (main (boot w)))) !! output_path = Some script_output.
Proof.
  rewrite main_run. repeat case_decide; simpl; try discriminate.
  intros _. apply lookup_insert_eq.
Qed.

(** C10: the script reads nothing, so whatever the file system it starts
    on, it builds the same record of eight entries and the same vectors,
    and two runs that get to the end leave the same record in the file. *)
Theorem main_deterministic (w1 w2 : world) :
  (exists fields,
     fst (main_compute (boot w1)) = Ok (JObj fields) /\
     fst (main_compute (boot w2)) = Ok (JObj fields) /\
     length fields = 8%nat) /\
  heap (snd (main_compute (boot w1))) = heap (snd (main_compute (boot w2))) /\
  (fst (main (boot w1)) = Ok tt -> fst (main (boot w2)) = Ok tt ->
   files (sys (snd (main (boot w1)))) !! output_path
   = files (sys (snd (main (boot w2)))) !! output_path).
Proof.
  rewrite !main_compute_run. split; [|split].
  - eexists. repeat split.
  - reflexivity.
  - intros H1 H2. now rewrite !main_writes_record.
Qed.

Lemma main_deterministic_two_worlds :
  fst (main (boot empty_world)) = Ok tt /\
  fst (main (boot used_world)) = Ok tt /\
  files (sys (snd (main (boot empty_world)))) !! output_path
  = files (sys (snd (main (boot used_world)))) !! output_path.
Proof.
  assert (H1 : fst (main (boot empty_world)) = Ok tt) by (vm_compute; reflexivity).
  assert (H2 : fst (main (boot used_world)) = Ok tt) by (vm_compute; reflexivity).
  split; [exact H1|]. split; [exact H2|].
  exact (proj2 (proj2 (main_deterministic empty_world used_world)) H1 H2).
Defined.

(** ** Normalized vectors and unit length *)


(** A vector whose squares underflow is not zero and cannot be normalized. *)
Example normalize_underflow_raises :
  Vector3.is_zero (Vec3 0x1p-600 0 0) = false /\
  Vector3.normalize (Vec3 0x1p-600 0 0) = Raise DivisionByZero.
Proof. split; reflexivity. Qed.






(** ** More on sums and differences (lines 37 and 40) *)

Section SumFacts.

Variables prec emax : BinNums.Z.

Lemma SFsub_as_add (u v : spec_float) :
  SFsub prec emax u v = SFadd prec emax u (SFopp v).
Proof.
  destruct u as [su|su| |su mu eu], v as [sv|sv| |sv mv ev];
    try reflexivity; destruct su, sv; reflexivity.
Qed.

Lemma SFsub_diag (u : spec_float) :
  SFfinite u = true -> SFsub prec emax u u = S754_zero false.
Proof.
  destruct u as [[|]|s| |s m e]; try discriminate; try reflexivity.
  intros _. unfold SFsub. now rewrite Z.sub_diag.
Qed.

Lemma SFadd_neg_zero (u : spec_float) : SFadd prec emax u (S754_zero true) = u.
Proof. destruct u as [[|]|s| |s m e]; reflexivity. Qed.

Lemma SFadd_pos_zero (u : spec_float) : SFsame (SFadd prec emax u (S754_zero false)) u.
Proof.
  destruct u as [[|]|s| |s m e]; try (left; reflexivity).
  right. reflexivity.
Qed.

Lemma SFnonneg_not_nan (u : spec_float) : SFnonneg u -> u <> S754_nan.
Proof. intros H E. rewrite E in H. discriminate. Qed.

Lemma binary_round_not_nan (s : bool) (m : positive) (e : BinNums.Z) :
  binary_round prec emax s m e <> S754_nan.
Proof.
  assert (H : binary_round prec emax false m e <> S754_nan).
  { unfold binary_round. destruct (shl_align m e _) as [mz ez].
    apply SFnonneg_not_nan. now apply binary_round_aux_nonneg. }
  destruct s; [|exact H].
  rewrite (binary_round_opp prec emax false). intros E. apply H.
  now destruct (binary_round prec emax false m e).
Qed.

Lemma binary_normalize_not_nan (m e : BinNums.Z) (sz : bool) :
  binary_normalize prec emax m e sz <> S754_nan.
Proof.
  destruct m as [|p|p]; simpl; try discriminate; apply binary_round_not_nan.
Qed.

Lemma SFadd_finite_not_nan (u v : spec_float) :
  SFfinite u = true -> SFfinite v = true -> SFadd prec emax u v <> S754_nan.
Proof.
  destruct u as [su|su| |su mu eu], v as [sv|sv| |sv mv ev];
    try discriminate; intros _ _.
  - now destruct su, sv.
  - apply binary_normalize_not_nan.
Qed.

Lemma SFopp_finite (u : spec_float) : SFfinite (SFopp u) = SFfinite u.
Proof. now destruct u. Qed.

End SumFacts.

Section SumFloatFacts.

Implicit Types x y : float.

Lemma Prim2SF_neg_zero : Prim2SF (-0) = S754_zero true.
Proof. reflexivity. Qed.

Lemma Prim2SF_infinity : Prim2SF infinity = S754_infinity false.
Proof. reflexivity. Qed.

Lemma is_finite_spec x : is_finite x = true -> SFfinite (Prim2SF x) = true.
Proof.
  unfold is_finite, is_nan, is_infinity.
  rewrite !FloatAxioms.eqb_spec, FloatAxioms.abs_spec, Prim2SF_infinity.
  destruct (Prim2SF x) as [s|[|]| |s m e]; try reflexivity; discriminate.
Qed.

Lemma nan_spec x : Prim2SF x <> S754_nan -> is_nan x = false.
Proof.
  unfold is_nan. rewrite FloatAxioms.eqb_spec. intros H.
  destruct (Prim2SF x) as [s|[|]| |[|] m e]; try reflexivity; try congruence;
    unfold SFeqb, SFcompare;
    now rewrite Z.compare_refl, Pos.compare_cont_refl.
Qed.

Lemma float_sub_as_add x y : x - y = x + (- y).
Proof.
  apply Prim2SF_inj.
  rewrite FloatAxioms.sub_spec, FloatAxioms.add_spec, FloatAxioms.opp_spec.
  apply SFsub_as_add.
Qed.

Lemma float_sub_diag x : is_finite x = true -> x - x = 0.
Proof.
  intros H. apply Prim2SF_inj. rewrite FloatAxioms.sub_spec, Prim2SF_zero.
  apply SFsub_diag. now apply is_finite_spec.
Qed.

Lemma float_add_neg_zero x : x + (-0) = x.
Proof.
  apply Prim2SF_inj. rewrite FloatAxioms.add_spec, Prim2SF_neg_zero.
  apply SFadd_neg_zero.
Qed.

Lemma float_add_zero x : same_float (x + 0) x.
Proof.
  destruct (SFadd_pos_zero prec emax (Prim2SF x)) as [H|H].
  - left. apply Prim2SF_inj. now rewrite FloatAxioms.add_spec, Prim2SF_zero.
  - right. now rewrite FloatAxioms.eqb_spec, FloatAxioms.add_spec, Prim2SF_zero.
Qed.

Lemma float_add_finite x y :
  is_finite x = true -> is_finite y = true -> is_nan (x + y) = false.
Proof.
  intros Hx Hy. apply nan_spec. rewrite FloatAxioms.add_spec.
  apply SFadd_finite_not_nan; now apply is_finite_spec.
Qed.

Lemma float_sub_finite x y :
  is_finite x = true -> is_finite y = true -> is_nan (x - y) = false.
Proof.
  intros Hx Hy. apply nan_spec.
  rewrite FloatAxioms.sub_spec. unfold SF64sub. rewrite SFsub_as_add.
  apply SFadd_finite_not_nan; [|rewrite SFopp_finite]; now apply is_finite_spec.
Qed.

End SumFloatFacts.

Lemma all_finite_true (a : Vector3) :
  all_finite a = true ->
  is_finite (vx a) = true /\ is_finite (vy a) = true /\ is_finite (vz a) = true.
Proof.
  unfold all_finite.
  destruct (is_finite (vx a)), (is_finite (vy a)), (is_finite (vz a));
    simpl; auto; discriminate.
Qed.

(** X1: a difference and the negated opposite difference agree coordinate
    by coordinate, each pair being the same double or two doubles that
    compare equal (a zero against the zero of the other sign); the vectors
    compare equal when the difference has no NaN. *)
Theorem subtract_antisymmetric (a b : Vector3) :
  same_vector (Vector3.subtract a b) (Vector3.negate (Vector3.subtract b a)) /\
  (Vector3.has_nan (Vector3.subtract a b) = false ->
   Vector3.eqb (Vector3.subtract a b) (Vector3.negate (Vector3.subtract b a)) = true).
Proof.
  assert (Hs : same_vector (Vector3.subtract a b)
                           (Vector3.negate (Vector3.subtract b a))).
  { repeat split; apply float_sub_antisym. }
  split; [exact Hs|].
  intros H. apply has_nan_false in H as (Hx & Hy & Hz).
  destruct Hs as (Sx & Sy & Sz). unfold Vector3.eqb.
  now rewrite (same_float_eqb _ _ Sx Hx), (same_float_eqb _ _ Sy Hy),
              (same_float_eqb _ _ Sz Hz).
Qed.

Lemma subtract_antisymmetric_v1_v2 :
  Vector3.has_nan (Vector3.subtract v1 v2) = false /\
  Vector3.eqb (Vector3.subtract v1 v2) (Vector3.negate (Vector3.subtract v2 v1)) = true.
Proof.
  split; [reflexivity|].
  apply (proj2 (subtract_antisymmetric v1 v2)). reflexivity.
Defined.

(** The two sides are not always the same double: 1 - 1 is +0, its
    negation -0. *)
Example subtract_self_signed_zero :
  Vector3.subtract v1 v1 = Vec3 0 0 0 /\
  Vector3.negate (Vector3.subtract v1 v1) = Vec3 (-0) (-0) (-0).
Proof. split; reflexivity. Qed.

(** X2: subtracting a vector is adding its negation, to the last bit. *)
Theorem subtract_is_add_negate (a b : Vector3) :
  Vector3.subtract a b = Vector3.add a (Vector3.negate b).
Proof.
  unfold Vector3.subtract, Vector3.add, Vector3.negate; simpl.
  f_equal; apply float_sub_as_add.
Qed.

(** X3: a vector of finite coordinates minus itself is (+0, +0, +0). *)
Theorem subtract_self (a : Vector3) :
  all_finite a = true -> Vector3.subtract a a = Vec3 0 0 0.
Proof.
  intros H. apply all_finite_true in H as (Hx & Hy & Hz).
  unfold Vector3.subtract. f_equal; now apply float_sub_diag.
Qed.

Lemma subtract_self_v2 :
  all_finite v2 = true /\ Vector3.subtract v2 v2 = Vec3 0 0 0.
Proof. split; [reflexivity|]. apply (subtract_self v2). reflexivity. Defined.

(** An infinite coordinate minus itself is NaN. *)
Example subtract_self_infinite :
  is_nan (vx (Vector3.subtract (Vec3 infinity 0 0) (Vec3 infinity 0 0))) = true.
Proof. reflexivity. Qed.

(** X4: the vector of negative zeros is the neutral element of the sum;
    adding (+0, +0, +0) gives the vector back up to the sign of a zero. *)
Theorem add_zero_vector (a : Vector3) :
  Vector3.add a (Vec3 (-0) (-0) (-0)) = a /\
  Vector3.add (Vec3 (-0) (-0) (-0)) a = a /\
  same_vector (Vector3.add a (Vec3 0 0 0)) a.
Proof.
  destruct a as [x y z]. unfold Vector3.add, same_vector; simpl.
  split; [|split].
  - f_equal; apply float_add_neg_zero.
  - rewrite !(float_add_comm (-0)). f_equal; apply float_add_neg_zero.
  - repeat split; apply float_add_zero.
Qed.

(** Adding +0 turns a -0 into +0. *)
Example add_zero_changes_sign :
  Vector3.add (Vec3 (-0) 1 2) (Vec3 0 0 0) = Vec3 0 1 2.
Proof. reflexivity. Qed.

(** X5: the sum and the difference of two vectors of finite coordinates
    have no NaN coordinate. *)
Theorem add_subtract_no_nan (a b : Vector3) :
  all_finite a = true -> all_finite b = true ->
  Vector3.has_nan (Vector3.add a b) = false /\
  Vector3.has_nan (Vector3.subtract a b) = false.
Proof.
  intros Ha Hb.
  apply all_finite_true in Ha as (Ax & Ay & Az).
  apply all_finite_true in Hb as (Bx & By & Bz).
  unfold Vector3.has_nan, Vector3.add, Vector3.subtract; simpl.
  now rewrite !float_add_finite, !float_sub_finite.
Qed.

Lemma add_subtract_no_nan_v1_v2 :
  all_finite v1 = true /\ all_finite v2 = true /\
  Vector3.has_nan (Vector3.add v1 v2) = false /\
  Vector3.has_nan (Vector3.subtract v1 v2) = false.
Proof.
  split; [reflexivity|]. split; [reflexivity|].
  apply (add_subtract_no_nan v1 v2); reflexivity.
Defined.

(** Finite coordinates can still overflow to an infinity. *)
Example add_overflows :
  all_finite (Vec3 0x1p1023 0 0) = true /\
  Vector3.add (Vec3 0x1p1023 0 0) (Vec3 0x1p1023 0 0) = Vec3 infinity 0 0.
Proof. split; reflexivity. Qed.

(** ** More on [vector_to_dict] (lines 23 to 29) *)

Lemma vector_to_dict_dead (s : state) (vec : ref) :
  heap s !! vec = None -> vector_to_dict vec s = (Raise InvalidRef, s).
Proof.
  intros Hv. unfold vector_to_dict, gp_Vec.X, gp_Vec.deref, bind.
  now rewrite Hv.
Qed.

Lemma vec_record_inj (a b : Vector3) :
  vec_record (vx a) (vy a) (vz a) = vec_record (vx b) (vy b) (vz b) -> a = b.
Proof.
  destruct a as [x y z], b as [x' y' z']; simpl.
  unfold vec_record. intros H. injection H as -> -> ->. reflexivity.
Qed.

(** X6: the record of a vector is read without touching the machine, its
    fields x, y, z give the three coordinates back, and any vector with
    the same record has the same coordinates. *)
Theorem vector_to_dict_faithful (s : state) (vec : ref) (a : Vector3) :
  heap s !! vec = Some a ->
  exists d,
    vector_to_dict vec s = (Ok d, s) /\
    field "x" d = Some (JNum (vx a)) /\
    field "y" d = Some (JNum (vy a)) /\
    field "z" d = Some (JNum (vz a)) /\
    forall other, fst (vector_to_dict other s) = Ok d -> heap s !! other = Some a.
Proof.
  intros Hv. exists (vec_record (vx a) (vy a) (vz a)).
  split; [now apply vector_to_dict_run|]. repeat split.
  intros other Ho. destruct (heap s !! other) as [b|] eqn:Hb.
  - rewrite (vector_to_dict_run s other b Hb) in Ho. simpl in Ho.
    assert (E : vec_record (vx b) (vy b) (vz b) = vec_record (vx a) (vy a) (vz a))
      by congruence.
    now rewrite (vec_record_inj _ _ E).
  - rewrite (vector_to_dict_dead s other Hb) in Ho. discriminate.
Qed.

Lemma vector_to_dict_faithful_v1 :
  heap (State [v1; v2] empty_world) !! 0%nat = Some v1 /\
  exists d,
    vector_to_dict 0%nat (State [v1; v2] empty_world)
      = (Ok d, State [v1; v2] empty_world) /\
    field "x" d = Some (JNum 1) /\
    field "y" d = Some (JNum 2) /\
    field "z" d = Some (JNum 3) /\
    forall other,
      fst (vector_to_dict other (State [v1; v2] empty_world)) = Ok d ->
      heap (State [v1; v2] empty_world) !! other = Some v1.
Proof.
  split; [reflexivity|].
  apply (vector_to_dict_faithful (State [v1; v2] empty_world) 0%nat v1).
  reflexivity.
Defined.

(** X7: what line 37 (or line 40) builds and line 58 (or 59) serialises:
    on two live operands, which may be the same object, the record holds
    the sums (the differences) of the coordinates, and the only change to
    the machine is the new vector. *)
Theorem add_subtract_then_dict (s : state) (v w : ref) (a b : Vector3) :
  heap s !! v = Some a -> heap s !! w = Some b ->
  (r <- add v w ;; vector_to_dict r) s
    = (Ok (vec_record (vx a + vx b) (vy a + vy b) (vz a + vz b)),
       State (heap s ++ [Vector3.add a b]) (sys s)) /\
  (r <- subtract v w ;; vector_to_dict r) s
    = (Ok (vec_record (vx a - vx b) (vy a - vy b) (vz a - vz b)),
       State (heap s ++ [Vector3.subtract a b]) (sys s)).
Proof.
  intros Hv Hw. split.
  - unfold bind at 1. rewrite (add_run s v w a b Hv Hw).
    apply (vector_to_dict_run _ _ (Vector3.add a b)). simpl.
    rewrite lookup_app_r by lia. now rewrite Nat.sub_diag.
  - unfold bind at 1. rewrite (subtract_run s v w a b Hv Hw).
    apply (vector_to_dict_run _ _ (Vector3.subtract a b)). simpl.
    rewrite lookup_app_r by lia. now rewrite Nat.sub_diag.
Qed.

Lemma add_subtract_then_dict_alias :
  heap (State [v1; v2] empty_world) !! 1%nat = Some v2 /\
  (r <- add 1%nat 1%nat ;; vector_to_dict r) (State [v1; v2] empty_world)
    = (Ok (vec_record 8 10 12), State [v1; v2; Vec3 8 10 12] empty_world).
Proof.
  split; [reflexivity|].
  apply (proj1 (add_subtract_then_dict (State [v1; v2] empty_world)
                  1%nat 1%nat v2 v2 eq_refl eq_refl)).
Defined.

(** ** More on the end of [main] (lines 66 to 75) *)

Lemma main_ok_not_refused (w : world) :
  fst (main (boot w)) = Ok tt ->
  (result_dir ∉ refused w) /\ (output_path ∉ refused w).
Proof.
  rewrite main_run. repeat case_decide; simpl; try discriminate. auto.
Qed.

(** X8: the script ends well exactly when the system refuses neither the
    result directory nor the result file, and the only exception that can
    leave it is the I/O failure: the arithmetic never raises. *)
Theorem main_fails_only_when_refused (w : world) :
  (fst (main (boot w)) = Ok tt
     <-> (result_dir ∉ refused w) /\ (output_path ∉ refused w)) /\
  (fst (main (boot w)) = Ok tt \/ fst (main (boot w)) = Raise IOFailure).
Proof.
  rewrite main_run.
  destruct (decide (result_dir ∈ refused w)) as [Hd|Hd];
    [|destruct (decide (output_path ∈ refused w)) as [Hf|Hf]]; simpl;
    (split; [split; [discriminate || auto | intros [? ?]; done] | auto]).
Qed.

Lemma main_fails_only_when_refused_empty :
  ((result_dir ∉ refused empty_world) /\ (output_path ∉ refused empty_world)) /\
  fst (main (boot empty_world)) = Ok tt.
Proof.
  assert (H : (result_dir ∉ refused empty_world) /\ (output_path ∉ refused empty_world))
    by (split; apply not_elem_of_empty).
  split; [exact H|].
  exact (proj2 (proj1 (main_fails_only_when_refused empty_world)) H).
Defined.

(** X9: a refused directory stops the script before it changes anything;
    a refused file stops it after the directory was made, with no file
    written and nothing printed. *)
Theorem main_failure_effects (w : world) :
  (result_dir ∈ refused w -> sys (snd (main (boot w))) = w) /\
  (result_dir ∉ refused w -> output_path ∈ refused w ->
   sys (snd (main (boot w)))
   = World ({[result_dir]} ∪ dirs w) (files w) (refused w) (stdout w)).
Proof.
  rewrite main_run. split.
  - intros Hd. now rewrite decide_True.
  - intros Hd Hf. now rewrite decide_False, decide_True.
Qed.

Lemma main_failure_effects_refused_file :
  (result_dir ∉ refused (World ∅ ∅ {[output_path]} [])) /\
  (output_path ∈ refused (World ∅ ∅ {[output_path]} [])) /\
  sys (snd (main (boot (World ∅ ∅ {[output_path]} []))))
  = World ({[result_dir]} ∪ ∅) ∅ {[output_path]} [].
Proof.
  assert (Hd : result_dir ∉ refused (World ∅ ∅ {[output_path]} [])).
  { simpl. intros H. apply elem_of_singleton in H. vm_compute in H. discriminate. }
  assert (Hf : output_path ∈ refused (World ∅ ∅ {[output_path]} [])).
  { simpl. now apply elem_of_singleton. }
  split; [exact Hd|]. split; [exact Hf|].
  exact (proj2 (main_failure_effects (World ∅ ∅ {[output_path]} [])) Hd Hf).
Defined.

(** X10: whatever happens, the script leaves every other file as it was,
    removes no directory and adds none but the result directory, does not
    change what the system refuses, and keeps the lines already printed. *)
Theorem main_touches_only_output (w : world) :
  (forall p, p <> output_path ->
     files (sys (snd (main (boot w)))) !! p = files w !! p) /\
  dirs w ⊆ dirs (sys (snd (main (boot w)))) /\
  dirs (sys (snd (main (boot w)))) ⊆ {[result_dir]} ∪ dirs w /\
  refused (sys (snd (main (boot w)))) = refused w /\
  stdout w `prefix_of` stdout (sys (snd (main (boot w)))).
Proof.
  rewrite main_run.
  destruct (decide (result_dir ∈ refused w)) as [Hd|Hd];
    [|destruct (decide (output_path ∈ refused w)) as [Hf|Hf]]; simpl;
    repeat split; try set_solver; try reflexivity.
  - intros p Hp. now apply lookup_insert_ne.
  - now exists [message].
Qed.

Lemma main_touches_only_output_used :
  "notes.txt"%string <> output_path /\
  files (sys (snd (main (boot used_world)))) !! "notes.txt"%string
  = files used_world !! "notes.txt"%string.
Proof.
  assert (H : "notes.txt"%string <> output_path) by (vm_compute; discriminate).
  split; [exact H|].
  exact (proj1 (main_touches_only_output used_world) _ H).
Defined.

(** X11: a second run on what the first left ends well too, finds the
    directory and overwrites the file with the same record: directories
    and files are as after the first run, and the line is printed twice. *)
Theorem main_rerun (w : world) :
  fst (main (boot w)) = Ok tt ->
  fst (rerun w) = Ok tt /\
  dirs (sys (snd (rerun w))) = dirs (sys (snd (main (boot w)))) /\
  files (sys (snd (rerun w))) = files (sys (snd (main (boot w)))) /\
  stdout (sys (snd (rerun w))) = stdout w ++ [message; message].
Proof.
  intros H.
  apply main_ok_not_refused in H as [Hd Hf].
  unfold rerun. rewrite (main_run w), decide_False, decide_False by assumption.
  cbn [snd sys]. rewrite (main_run (written w)).
  cbn [written refused]. rewrite decide_False, decide_False by assumption.
  cbn [fst snd sys written dirs files stdout]. repeat split.
  - now rewrite (assoc_L (∪)), (idemp_L (∪)).
  - apply insert_insert_eq.
  - now rewrite <- app_assoc.
Qed.

Lemma main_rerun_empty :
  fst (main (boot empty_world)) = Ok tt /\
  fst (rerun empty_world) = Ok tt /\
  dirs (sys (snd (rerun empty_world))) = dirs (sys (snd (main (boot empty_world)))) /\
  files (sys (snd (rerun empty_world))) = files (sys (snd (main (boot empty_world)))) /\
  stdout (sys (snd (rerun empty_world))) = [message; message].
Proof.
  assert (H : fst (main (boot empty_world)) = Ok tt) by (vm_compute; reflexivity).
  split; [exact H|]. exact (main_rerun empty_world H).
Defined.
